(** * Correlation middleware and prompt-template loader

    A shallow embedding of the two Python modules of the shopping
    assistant's API layer:

    - [src/api/api/middleware.py]: [RequestIDMiddleware.dispatch];
    - [src/api/rag/utils/prompt_management.py]: [prompt_template_config].

    Python values are an inductive type, a raised exception is the [Raised]
    case of [Outcome], and the mutable objects a function touches (the
    request, the module-level logger, the file system) are threaded through
    explicitly as state. *)

From Stdlib Require Import String Ascii List ZArith Bool Lia.
From stdpp Require Import base option list gmap strings.

Set Warnings "-register-all".

Local Open Scope string_scope.
Local Open Scope list_scope.

(** ** Python values and exceptions *)

(** The objects [yaml.safe_load] can build, and what a request's state can
    hold.  A dict is kept as its items in insertion order.  [POpaque] stands
    for the remaining scalar types of the safe loader (float, bytes, date,
    datetime, set), which have no entries a [str] key could select. *)
Inductive PyVal : Type :=
| PNone
| PBool (b : bool)
| PInt (z : Z)
| PStr (s : string)
| PList (items : list PyVal)
| PDict (items : list (PyVal * PyVal))
| POpaque (type_name : string).

(** The exception classes that occur, each with the argument that identifies
    it.  [OtherError] is any exception class of an application handler. *)
Inductive PyExn : Type :=
| FileNotFoundError (path : string)
| PermissionError (path : string)
| IsADirectoryError (path : string)
| YAMLError (problem : string)
| KeyError (key : string)
| TypeError
| TemplateSyntaxError (problem : string)
| Unsupported (what : string)
| OtherError (class_name : string) (arg : string).

(** [OSError] and its alias [IOError] are the base class of the three file
    errors. *)
Definition is_OSError (e : PyExn) : bool :=
  match e with
  | FileNotFoundError _ | PermissionError _ | IsADirectoryError _ => true
  | _ => false
  end.

Definition is_KeyError (e : PyExn) : bool :=
  match e with KeyError _ => true | _ => false end.

Definition is_TypeError (e : PyExn) : bool :=
  match e with TypeError => true | _ => false end.

(** A call either returns a value or raises. *)
Inductive Outcome (A : Type) : Type :=
| Returned (a : A)
| Raised (e : PyExn).
Arguments Returned {A} a.
Arguments Raised {A} e.

(** ** Effectful code

    A state transformer that may raise.  The state is returned on both
    paths, since nothing rolls a mutation back when an exception
    propagates. *)
Definition M (S A : Type) : Type := S -> Outcome A * S.

Definition ret {S A} (a : A) : M S A := fun st => (Returned a, st).

Definition bind {S A B} (m : M S A) (k : A -> M S B) : M S B :=
  fun st =>
    match m st with
    | (Returned a, st') => k a st'
    | (Raised e, st') => (Raised e, st')
    end.

(** A call that reads no state and changes none. *)
Definition lift {S A} (o : Outcome A) : M S A := fun st => (o, st).

Notation "'let*' x ':=' m 'in' k" := (bind m (fun x => k))
  (at level 10, x name, m at level 100, k at level 200).
Notation "m ';;' k" := (bind m (fun _ => k))
  (at level 100, k at level 200, right associativity).

(** ** [str.lower] on ASCII text *)

Definition lower_ascii (c : ascii) : ascii :=
  let n := nat_of_ascii c in
  if (65 <=? n)%nat && (n <=? 90)%nat then ascii_of_nat (n + 32) else c.

Fixpoint lower (s : string) : string :=
  match s with
  | EmptyString => EmptyString
  | String c rest => String (lower_ascii c) (lower rest)
  end.

(** ** The correlation middleware *)

Module Middleware.

(** *** Starlette's mutable header list *)

(** [response.headers] is a [MutableHeaders] view on the response's raw
    header list: pairs of a lower-case name and a value, duplicates
    allowed. *)

(** [Headers.get]: the value of the first entry of that name, compared
    case-insensitively. *)
Fixpoint raw_get (l : list (string * string)) (get_key : string) : option string :=
  match l with
  | [] => None
  | (item_key, item_value) :: rest =>
      if String.eqb item_key get_key then Some item_value else raw_get rest get_key
  end.

Definition headers_get (l : list (string * string)) (key : string) : option string :=
  raw_get l (lower key).

(** The indexes at which [set_key] occurs, counting from [idx]. *)
Fixpoint found_indexes_from (idx : nat) (l : list (string * string)) (set_key : string)
  : list nat :=
  match l with
  | [] => []
  | (item_key, _) :: rest =>
      if String.eqb item_key set_key
      then idx :: found_indexes_from (S idx) rest set_key
      else found_indexes_from (S idx) rest set_key
  end.

(** [MutableHeaders.__setitem__]: set the header, removing any duplicate
    entries and retaining insertion order.  The later occurrences are deleted
    from the back, the first is overwritten in place, and a name that does
    not occur is appended. *)
Definition headers_setitem (l : list (string * string)) (key value : string)
  : list (string * string) :=
  let set_key := lower key in
  let found := found_indexes_from 0 l set_key in
  let l' := foldl (fun acc idx => delete idx acc) l (reverse (tail found)) in
  match found with
  | idx :: _ => <[idx := (set_key, value)]> l'
  | [] => l' ++ [(set_key, value)]
  end.

(** The entries of a raw header list under a name other than [key]. *)
Definition other_headers (l : list (string * string)) (key : string)
  : list (string * string) :=
  List.filter (fun item => negb (String.eqb item.1 key)) l.

(** What [__setitem__] amounts to, read front to back: the first entry of
    that name takes the value and the later ones go; without one, the entry
    is added at the end. *)
Fixpoint set_first (l : list (string * string)) (set_key value : string)
  : list (string * string) :=
  match l with
  | [] => [(set_key, value)]
  | (item_key, item_value) :: rest =>
      if String.eqb item_key set_key
      then (set_key, value) :: other_headers rest set_key
      else (item_key, item_value) :: set_first rest set_key value
  end.

(** *** Requests, responses and the world around a call *)

(** The parts of a request the middleware reads ([request.method],
    [request.url.path]) and the attribute bag it writes ([request.state]). *)
Record Request : Type := mkRequest {
  method : string;
  url_path : string;
  state : gmap string PyVal
}.

Record Response : Type := mkResponse {
  status_code : Z;
  raw_headers : list (string * string);
  body : list Byte.byte
}.

Inductive Level : Type := DEBUG | INFO | WARNING | ERROR.

(** A record handed to a logger: its level and its formatted message. *)
Record LogRecord : Type := mkLogRecord {
  levelname : Level;
  message : string
}.

Section Dispatch.

(** Everything else a downstream handler may read or change. *)
Variable Env : Type.

(** The state a call runs in.  [request] is the one request object that
    [dispatch] and the downstream handler share; [logger] holds the records
    handed so far to the module-level [logger = logging.getLogger(__name__)];
    [uuid_source] and [uuid_count] are the random source behind
    [uuid.uuid4]: the text of the n-th identifier drawn. *)
Record St : Type := mkSt {
  request : Request;
  logger : list LogRecord;
  uuid_source : nat -> string;
  uuid_count : nat;
  env : Env
}.

(** [str(uuid.uuid4())]: draw the next identifier. *)
Definition uuid4_str : M St string :=
  fun st =>
    (Returned (uuid_source st (uuid_count st)),
     mkSt (request st) (logger st) (uuid_source st) (S (uuid_count st)) (env st)).

(** [request.state.<name> = value]. *)
Definition set_request_state (name : string) (value : PyVal) : M St unit :=
  fun st =>
    let r := request st in
    (Returned tt,
     mkSt (mkRequest (method r) (url_path r) (<[name := value]> (state r)))
          (logger st) (uuid_source st) (uuid_count st) (env st)).

Definition get_request_method : M St string :=
  fun st => (Returned (method (request st)), st).

Definition get_request_url_path : M St string :=
  fun st => (Returned (url_path (request st)), st).

(** [logger.info(msg)]. *)
Definition logger_info (msg : string) : M St unit :=
  fun st =>
    (Returned tt,
     mkSt (request st) (logger st ++ [mkLogRecord INFO msg])
          (uuid_source st) (uuid_count st) (env st)).

(** [response.headers[key] = value]. *)
Definition set_response_header (response : Response) (key value : string) : Response :=
  mkResponse (status_code response)
             (headers_setitem (raw_headers response) key value)
             (body response).

(** [RequestIDMiddleware.dispatch(self, request, call_next)].  [call_next]
    is the downstream pipeline applied to the shared request: it runs on the
    current state, may change any of it, and returns a response or raises. *)
Definition dispatch (call_next : M St Response) : M St Response :=
  let* request_id := uuid4_str in
  set_request_state "request_id" (PStr request_id) ;;
  let* m := get_request_method in
  let* p := get_request_url_path in
  logger_info ("Request started: " +:+ m +:+ " " +:+ p
               +:+ " (request_id: " +:+ request_id +:+ ")") ;;
  let* response := call_next in
  let response := set_response_header response "X-Request-ID" request_id in
  let* m := get_request_method in
  let* p := get_request_url_path in
  logger_info ("Request completed: " +:+ m +:+ " " +:+ p
               +:+ " (request_id: " +:+ request_id +:+ ")") ;;
  ret response.

(** The identifier the next call of [uuid4_str] draws in [st]. *)
Definition fresh_id (st : St) : string := uuid_source st (uuid_count st).

(** The state in which [dispatch] hands control to the downstream pipeline:
    what a pipeline that raises at once leaves behind. *)
Definition at_call (st : St) : St :=
  (dispatch (fun st1 => (Raised (OtherError "Probe" ""), st1)) st).2.

(** A downstream pipeline that hands no record to this module's logger and
    keeps the records it has. *)
Definition keeps_logger (call_next : M St Response) : Prop :=
  forall st, logger (call_next st).2 = logger st.

(** A downstream pipeline that leaves [request.state.request_id] as it
    found it. *)
Definition keeps_request_id (call_next : M St Response) : Prop :=
  forall st,
    state (request (call_next st).2) !! "request_id" = state (request st) !! "request_id".

End Dispatch.

Arguments mkSt {Env}.
Arguments request {Env}.
Arguments logger {Env}.
Arguments uuid_source {Env}.
Arguments uuid_count {Env}.
Arguments env {Env}.
Arguments uuid4_str {Env}.
Arguments set_request_state {Env}.
Arguments get_request_method {Env}.
Arguments get_request_url_path {Env}.
Arguments logger_info {Env}.
Arguments dispatch {Env} call_next st : simpl never.
Arguments fresh_id {Env}.
Arguments at_call {Env} st : simpl never.
Arguments keeps_logger {Env}.
Arguments keeps_request_id {Env}.

(** *** The record forms of the interface description *)

(** [Request started: <METHOD> <PATH> (request_id: <id>)] *)
Definition started_form (METHOD PATH id : string) : string :=
  "Request started: " +:+ METHOD +:+ " " +:+ PATH +:+ " (request_id: " +:+ id +:+ ")".

(** [Request completed: <METHOD> <PATH> (request_id: <id>)] *)
Definition completed_form (METHOD PATH id : string) : string :=
  "Request completed: " +:+ METHOD +:+ " " +:+ PATH +:+ " (request_id: " +:+ id +:+ ")".

(** *** Sample pipelines and a sample request *)

Definition sample_response : Response :=
  mkResponse 200 [("content-type", "application/json"); ("content-length", "2")] [].

(** A route that answers, after setting an attribute of its own and
    counting the call. *)
Definition answering : M (St nat) Response :=
  fun st =>
    let r := request st in
    (Returned sample_response,
     mkSt (mkRequest (method r) (url_path r) (<["user" := PStr "guest"]> (state r)))
          (logger st) (uuid_source st) (uuid_count st) (S (env st))).

(** A route that fails. *)
Definition failing : M (St nat) Response :=
  fun st => (Raised (OtherError "ValueError" "no such product"), st).

Definition sample_state : St nat :=
  mkSt (mkRequest "GET" "/rag" ∅) []
       (fun _ => "1b4e28ba-2fa1-41d2-883f-0016d3cca427") 0 0.

End Middleware.

(** ** The prompt-template loader *)

Module PromptManagement.

(** *** Subscripting a parsed document *)

(** The value a dict holds under a [str] key.  A key of another type never
    compares equal to a [str]. *)
Fixpoint dict_get (items : list (PyVal * PyVal)) (key : string) : option PyVal :=
  match items with
  | [] => None
  | (PStr k, v) :: rest => if String.eqb k key then Some v else dict_get rest key
  | _ :: rest => dict_get rest key
  end.

(** [obj[key]] for a [str] key: a dict looks the key up and raises
    [KeyError] when it is missing; a list, a str and every other object
    raise [TypeError]. *)
Definition getitem (obj : PyVal) (key : string) : Outcome PyVal :=
  match obj with
  | PDict items =>
      match dict_get items key with
      | Some v => Returned v
      | None => Raised (KeyError key)
      end
  | _ => Raised TypeError
  end.

Definition is_dict (obj : PyVal) : bool :=
  match obj with PDict _ => true | _ => false end.

(** The entry a parsed document holds under a [str] key: the value a
    mapping has for it.  A document of any other shape holds no entries. *)
Definition entry_of (obj : PyVal) (key : string) : option PyVal :=
  match obj with
  | PDict items => dict_get items key
  | _ => None
  end.

(** *** Files and the calls into the libraries *)

Inductive FileNode : Type :=
| RegularFile (readable : bool) (content : string)
| Directory.

(** The calls the loader makes to the operating system, the YAML parser and
    the template engine, in the order it makes them. *)
Inductive Call : Type :=
| CallOpen (path : string)
| CallSafeLoad (text : string)
| CallClose (path : string)
| CallTemplate (source : PyVal).

Definition is_CallSafeLoad (c : Call) : bool :=
  match c with CallSafeLoad _ => true | _ => false end.

Definition is_CallTemplate (c : Call) : bool :=
  match c with CallTemplate _ => true | _ => false end.

(** The file system the loader reads and the calls made so far. *)
Record Sys : Type := mkSys {
  files : gmap string FileNode;
  calls : list Call
}.

Definition record_call (c : Call) (sys : Sys) : Sys :=
  mkSys (files sys) (calls sys ++ [c]).

(** [open(path, "r")]: the text of a readable regular file. *)
Definition open_r (path : string) : M Sys string :=
  fun sys =>
    let sys' := record_call (CallOpen path) sys in
    match files sys !! path with
    | None => (Raised (FileNotFoundError path), sys')
    | Some Directory => (Raised (IsADirectoryError path), sys')
    | Some (RegularFile false _) => (Raised (PermissionError path), sys')
    | Some (RegularFile true content) => (Returned content, sys')
    end.

(** [with open(path, "r") as file: body]: the file is closed when the block
    is left, by a return or by an exception, which then propagates. *)
Definition with_open {A} (path : string) (body : string -> M Sys A) : M Sys A :=
  fun sys =>
    match open_r path sys with
    | (Raised e, sys') => (Raised e, sys')
    | (Returned file, sys') =>
        let '(o, sys'') := body file sys' in
        (o, record_call (CallClose path) sys'')
    end.

(** The state once [yaml_file] has been opened, its [text] handed to the
    parser, and the file closed again. *)
Definition after_load (sys : Sys) (yaml_file text : string) : Sys :=
  mkSys (files sys)
        (calls sys ++ [CallOpen yaml_file; CallSafeLoad text; CallClose yaml_file]).

Section Loader.

(** The two libraries behind the loader: [yaml.safe_load] on the text of a
    file, and the template engine's compilation of a source string into a
    template object. *)
Variable Tpl : Type.
Variable safe_load : string -> Outcome PyVal.
Variable compile : string -> Outcome Tpl.

Definition yaml_safe_load (file : string) : M Sys PyVal :=
  fun sys => (safe_load file, record_call (CallSafeLoad file) sys).

(** [jinja2.Template(source)]: a string is parsed and compiled; any other
    object is not a template node and cannot be compiled. *)
Definition Template (source : PyVal) : M Sys Tpl :=
  fun sys =>
    (match source with
     | PStr text => compile text
     | _ => Raised TypeError
     end,
     record_call (CallTemplate source) sys).

(** [prompt_template_config(yaml_file, prompt_key)]. *)
Definition prompt_template_config (yaml_file prompt_key : string) : M Sys Tpl :=
  let* config := with_open yaml_file (fun file => yaml_safe_load file) in
  let* prompts := lift (getitem config "prompts") in
  let* template_content := lift (getitem prompts prompt_key) in
  let* template := Template template_content in
  ret template.

End Loader.

Arguments yaml_safe_load safe_load file sys /.
Arguments Template {Tpl} compile source sys /.
Arguments prompt_template_config {Tpl} safe_load compile yaml_file prompt_key sys.

End PromptManagement.

(** ** Reference models of the two libraries

    Executable descriptions of [yaml.safe_load] and of the template engine
    on the fragment the loader's configuration files use: documents in flow
    style with double-quoted strings, and templates made of text and
    [{{ name }}] placeholders.  On an input outside the fragment a model
    answers [Unsupported]: it says nothing about what the library does
    there. *)

Module Reference.

Definition dquote : ascii := "034"%char.
Definition newline : ascii := "010"%char.

(** **** YAML *)

Fixpoint skip_spaces (s : string) : string :=
  match s with
  | String c rest => if Ascii.eqb c " " then skip_spaces rest else s
  | EmptyString => s
  end.

Fixpoint skip_blank (s : string) : string :=
  match s with
  | String c rest =>
      if Ascii.eqb c " " || Ascii.eqb c newline then skip_blank rest else s
  | EmptyString => s
  end.

(** A printable ASCII character that stands for itself inside double
    quotes. *)
Definition plain_in_quotes (c : ascii) : bool :=
  let n := nat_of_ascii c in
  (32 <=? n)%nat && (n <=? 126)%nat && negb (Ascii.eqb c "\") && negb (Ascii.eqb c dquote).

(** The text up to the closing quote, and what follows it. *)
Fixpoint scan_quoted (s : string) : option (string * string) :=
  match s with
  | EmptyString => None
  | String c rest =>
      if Ascii.eqb c dquote then Some (EmptyString, rest)
      else if plain_in_quotes c then
        match scan_quoted rest with
        | Some (text, rest') => Some (String c text, rest')
        | None => None
        end
      else None
  end.

(** [mapping[key] = value] while a mapping is built: a repeated key keeps
    its place and takes the later value. *)
Fixpoint dict_set (items : list (PyVal * PyVal)) (key : string) (value : PyVal)
  : list (PyVal * PyVal) :=
  match items with
  | [] => [(PStr key, value)]
  | (PStr k, v) :: rest =>
      if String.eqb k key then (PStr k, value) :: rest
      else (PStr k, v) :: dict_set rest key value
  | item :: rest => item :: dict_set rest key value
  end.

(** A flow node: a double-quoted scalar, a flow mapping with double-quoted
    keys, or a flow sequence. *)
Fixpoint parse_node (fuel : nat) (s : string) : option (PyVal * string) :=
  match fuel with
  | O => None
  | S fuel' =>
      match s with
      | String "{" rest =>
          match skip_spaces rest with
          | String "}" rest' => Some (PDict [], rest')
          | rest' => parse_entries fuel' rest' []
          end
      | String "[" rest =>
          match skip_spaces rest with
          | String "]" rest' => Some (PList [], rest')
          | rest' => parse_items fuel' rest' []
          end
      | String c rest =>
          if Ascii.eqb c dquote then
            match scan_quoted rest with
            | Some (text, rest') => Some (PStr text, rest')
            | None => None
            end
          else None
      | EmptyString => None
      end
  end
with parse_entries (fuel : nat) (s : string) (acc : list (PyVal * PyVal))
  : option (PyVal * string) :=
  match fuel with
  | O => None
  | S fuel' =>
      match s with
      | String c rest =>
          if Ascii.eqb c dquote then
            match scan_quoted rest with
            | Some (key, rest1) =>
                match skip_spaces rest1 with
                | String ":" rest2 =>
                    match parse_node fuel' (skip_spaces rest2) with
                    | Some (value, rest3) =>
                        match skip_spaces rest3 with
                        | String "," rest4 =>
                            parse_entries fuel' (skip_spaces rest4) (dict_set acc key value)
                        | String "}" rest4 => Some (PDict (dict_set acc key value), rest4)
                        | _ => None
                        end
                    | None => None
                    end
                | _ => None
                end
            | None => None
            end
          else None
      | EmptyString => None
      end
  end
with parse_items (fuel : nat) (s : string) (acc : list PyVal) : option (PyVal * string) :=
  match fuel with
  | O => None
  | S fuel' =>
      match parse_node fuel' s with
      | Some (value, rest) =>
          match skip_spaces rest with
          | String "," rest' => parse_items fuel' (skip_spaces rest') (acc ++ [value])
          | String "]" rest' => Some (PList (acc ++ [value]), rest')
          | _ => None
          end
      | None => None
      end
  end.

(** [yaml.safe_load(text)]: an empty or blank stream holds no document and
    loads as [None]; otherwise the single flow node of the stream. *)
Definition safe_load (text : string) : Outcome PyVal :=
  match skip_blank text with
  | EmptyString => Returned PNone
  | s =>
      match parse_node (S (String.length s)) s with
      | Some (value, rest) =>
          match skip_blank rest with
          | EmptyString => Returned value
          | _ => Raised (Unsupported "yaml")
          end
      | None => Raised (Unsupported "yaml")
      end
  end.

(** **** Templates *)

(** A compiled template: literal text and variable placeholders. *)
Inductive Node : Type :=
| Data (text : string)
| Var (name : string).

Definition is_name_start (c : ascii) : bool :=
  let n := nat_of_ascii c in
  ((97 <=? n)%nat && (n <=? 122)%nat) || ((65 <=? n)%nat && (n <=? 90)%nat)
  || Ascii.eqb c "_".

Definition is_name_char (c : ascii) : bool :=
  let n := nat_of_ascii c in
  is_name_start c || ((48 <=? n)%nat && (n <=? 57)%nat).

Fixpoint all_name_chars (s : string) : bool :=
  match s with
  | EmptyString => true
  | String c rest => is_name_char c && all_name_chars rest
  end.

(** Names the engine reads as a literal, an operator or one of its own
    globals rather than as a variable of the caller. *)
Definition reserved_names : list string :=
  ["true"; "false"; "True"; "False"; "none"; "None"; "not"; "and"; "or";
   "in"; "is"; "if"; "else"; "range"; "dict"; "lipsum"; "cycler"; "joiner";
   "namespace"; "self"].

Fixpoint take_name (s : string) : string * string :=
  match s with
  | String c rest =>
      if is_name_char c then let '(n, r) := take_name rest in (String c n, r)
      else (EmptyString, s)
  | EmptyString => (EmptyString, EmptyString)
  end.

(** The expression between the delimiters when it is one variable name. *)
Definition parse_name (inner : string) : option string :=
  match skip_spaces inner with
  | String c rest =>
      if is_name_start c then
        let '(n, r) := take_name (String c rest) in
        match skip_spaces r with
        | EmptyString =>
            if existsb (String.eqb n) reserved_names then None else Some n
        | _ => None
        end
      else None
  | EmptyString => None
  end.

(** The text before the first [}}] and the text after it. *)
Fixpoint find_close (s : string) : option (string * string) :=
  match s with
  | EmptyString => None
  | String "}" (String "}" rest) => Some (EmptyString, rest)
  | String c rest =>
      match find_close rest with
      | Some (inner, rest') => Some (String c inner, rest')
      | None => None
      end
  end.

Definition cons_data (c : ascii) (nodes : list Node) : list Node :=
  match nodes with
  | Data text :: rest => Data (String c text) :: rest
  | _ => Data (String c EmptyString) :: nodes
  end.

Fixpoint compile_from (fuel : nat) (s : string) : Outcome (list Node) :=
  match fuel with
  | O => Raised (Unsupported "template")
  | S fuel' =>
      match s with
      | EmptyString => Returned []
      | String "{" (String "{" rest) =>
          match find_close rest with
          | None => Raised (TemplateSyntaxError "unexpected end of template")
          | Some (inner, rest') =>
              match parse_name inner with
              | None => Raised (Unsupported "template")
              | Some n =>
                  match compile_from fuel' rest' with
                  | Returned nodes => Returned (Var n :: nodes)
                  | Raised e => Raised e
                  end
              end
          end
      | String "{" (String "%" _) => Raised (Unsupported "template")
      | String "{" (String "#" _) => Raised (Unsupported "template")
      | String c rest =>
          if Ascii.eqb c "013" then Raised (Unsupported "template")
          else
            match compile_from fuel' rest with
            | Returned nodes => Returned (cons_data c nodes)
            | Raised e => Raised e
            end
      end
  end.

(** The source without the single trailing newline the lexer drops. *)
Fixpoint strip_trailing_newline (s : string) : string :=
  match s with
  | EmptyString => EmptyString
  | String c EmptyString => if Ascii.eqb c newline then EmptyString else s
  | String c rest => String c (strip_trailing_newline rest)
  end.

(** Compilation of a template source string. *)
Definition compile (source : string) : Outcome (list Node) :=
  compile_from (S (String.length source)) (strip_trailing_newline source).

(** [template.render(bindings)] with [str] values: text stands for itself,
    a bound variable for its value, and an unbound one for the empty
    string. *)
Fixpoint render (template : list Node) (bindings : gmap string string) : string :=
  match template with
  | [] => EmptyString
  | Data text :: rest => text +:+ render rest bindings
  | Var n :: rest => default EmptyString (bindings !! n) +:+ render rest bindings
  end.

End Reference.

(** ** Sample configuration files *)

Module Samples.
Import PromptManagement.

Definition quoted (s : string) : string :=
  String Reference.dquote (s +:+ String Reference.dquote EmptyString).

(** The document [{"prompts": {"greeting": "Hello, {{ name }}!"}}]. *)
Definition greeting_document : string :=
  "{" +:+ quoted "prompts" +:+ ": {" +:+ quoted "greeting" +:+ ": "
  +:+ quoted "Hello, {{ name }}!" +:+ "}}".

(** A document with a template, but not under [prompts]:
    [{"templates": {"greeting": "Hello"}}]. *)
Definition misplaced_document : string :=
  "{" +:+ quoted "templates" +:+ ": {" +:+ quoted "greeting" +:+ ": "
  +:+ quoted "Hello" +:+ "}}".

(** A directory of configuration files: [prompts.yaml] holds [text],
    [locked.yaml] cannot be read by the process, [archive] is a
    subdirectory. *)
Definition config_dir (text : string) : Sys :=
  mkSys (<["prompts.yaml" := RegularFile true text]>
         (<["locked.yaml" := RegularFile false text]>
          (<["archive" := Directory]> ∅)))
        [].

End Samples.

(** ** Further sample pipelines and files *)

Module MoreSamples.
Import Middleware PromptManagement Samples.

(** A route that logs a line of its own on the module's logger before it
    answers. *)
Definition chatty : M (St nat) Response :=
  fun st =>
    (Returned sample_response,
     mkSt (request st) (logger st ++ [mkLogRecord DEBUG "looking up products"])
          (uuid_source st) (uuid_count st) (env st)).

(** A route behind a proxy that had stamped the response twice already. *)
Definition stamped_response : Response :=
  mkResponse 200
    [("x-request-id", "upstream-1"); ("content-type", "text/plain");
     ("x-request-id", "upstream-2")]
    [].

Definition restamping : M (St nat) Response :=
  fun st => (Returned stamped_response, st).

(** A random source whose first two draws differ. *)
Definition two_ids (n : nat) : string :=
  match n with
  | O => "1b4e28ba-2fa1-41d2-883f-0016d3cca427"
  | _ => "6fa459ea-ee8a-4ca4-894e-db77e160355e"
  end.

Definition fresh_state : St nat :=
  mkSt (mkRequest "POST" "/rag" ∅) [] two_ids 0 0.

(** [{"prompts": []}]: the [prompts] entry is a sequence. *)
Definition prompts_list_document : string :=
  "{" +:+ quoted "prompts" +:+ ": []}".

(** [{"prompts": {"greeting": []}}]: the template entry is not a string. *)
Definition list_template_document : string :=
  "{" +:+ quoted "prompts" +:+ ": {" +:+ quoted "greeting" +:+ ": []}}".

(** [{"prompts": {"greeting": "Hello, {{ name"}}]: the placeholder is not
    closed. *)
Definition unclosed_document : string :=
  "{" +:+ quoted "prompts" +:+ ": {" +:+ quoted "greeting" +:+ ": "
  +:+ quoted "Hello, {{ name" +:+ "}}".

(** [yaml.safe_load] with one more stream described: [{], a flow mapping
    that is never closed, is a syntax error. *)
Definition safe_load_strict (text : string) : Outcome PyVal :=
  if String.eqb text "{" then Raised (YAMLError "expected the node content")
  else Reference.safe_load text.

(** The directory of [config_dir] with one more file beside
    [prompts.yaml]. *)
Definition larger_dir (text : string) : Sys :=
  mkSys (<["notes.txt" := RegularFile true "to do"]> (files (config_dir text)))
        [CallOpen "notes.txt"].

End MoreSamples.

(** * Properties *)

(** ** The header list *)

Module HeaderFacts.
Import Middleware.

Lemma found_indexes_from_S (l : list (string * string)) (k : string) (n : nat) :
  found_indexes_from (S n) l k = S <$> found_indexes_from n l k.
Proof.
  revert n. induction l as [|[k' v'] t IH]; intros n; simpl; [done|].
  destruct (String.eqb k' k); simpl; by rewrite IH.
Qed.

(** Deleting at shifted indexes leaves the head in place. *)
Lemma delete_shifted (x : string * string) (js : list nat) (acc : list (string * string)) :
  foldl (fun a idx => delete idx a) (x :: acc) (S <$> js)
  = x :: foldl (fun a idx => delete idx a) acc js.
Proof.
  revert acc. induction js as [|j js IH]; intros acc; simpl; [done|].
  apply IH.
Qed.

(** Deleting every occurrence, last first, leaves the other entries. *)
Lemma delete_found (l : list (string * string)) (k : string) :
  foldl (fun a idx => delete idx a) l (reverse (found_indexes_from 0 l k))
  = other_headers l k.
Proof.
  induction l as [|[k' v'] t IH]; [done|].
  simpl. rewrite found_indexes_from_S.
  destruct (String.eqb k' k) eqn:E; simpl.
  - by rewrite reverse_cons, foldl_app, <- fmap_reverse, delete_shifted.
  - by rewrite <- fmap_reverse, delete_shifted, IH.
Qed.

(** The index-based update is the front-to-back one. *)
Lemma headers_setitem_set_first (l : list (string * string)) (key value : string) :
  headers_setitem l key value = set_first l (lower key) value.
Proof.
  unfold headers_setitem. generalize (lower key) as k. intros k.
  induction l as [|[k' v'] t IH]; [done|].
  simpl found_indexes_from. rewrite found_indexes_from_S. simpl set_first.
  destruct (String.eqb k' k) eqn:E.
  - simpl tail. rewrite <- fmap_reverse, delete_shifted, delete_found. done.
  - destruct (found_indexes_from 0 t k) as [|i F] eqn:EF; simpl in *.
    + by rewrite <- IH.
    + rewrite <- fmap_reverse, delete_shifted. simpl. by rewrite <- IH.
Qed.

Example setitem_replaces_first_drops_later :
  headers_setitem
    [("a", "1"); ("x-request-id", "old"); ("b", "2"); ("x-request-id", "dup"); ("c", "3")]
    "X-Request-ID" "new"
  = [("a", "1"); ("x-request-id", "new"); ("b", "2"); ("c", "3")].
Proof. reflexivity. Qed.

Example setitem_appends_new_name :
  headers_setitem [("content-type", "text/plain")] "X-Request-ID" "new"
  = [("content-type", "text/plain"); ("x-request-id", "new")].
Proof. reflexivity. Qed.

Lemma eqb_false_sym (k k' : string) : k' <> k -> String.eqb k k' = false.
Proof. intros H. apply String.eqb_neq. congruence. Qed.

Lemma raw_get_set_first (l : list (string * string)) (k v : string) :
  raw_get (set_first l k v) k = Some v.
Proof.
  induction l as [|[k' v'] t IH]; simpl.
  - by rewrite String.eqb_refl.
  - destruct (String.eqb k' k) eqn:E; simpl; [by rewrite String.eqb_refl|].
    by rewrite E.
Qed.

Lemma raw_get_other_headers (l : list (string * string)) (k k' : string) :
  k' <> k -> raw_get (other_headers l k) k' = raw_get l k'.
Proof.
  intros Hne. induction l as [|[k0 v0] t IH]; [done|].
  simpl. destruct (String.eqb k0 k) eqn:E; simpl.
  - apply String.eqb_eq in E. subst k0. by rewrite eqb_false_sym.
  - by rewrite IH.
Qed.

Lemma raw_get_set_first_ne (l : list (string * string)) (k v k' : string) :
  k' <> k -> raw_get (set_first l k v) k' = raw_get l k'.
Proof.
  intros Hne. induction l as [|[k0 v0] t IH]; simpl.
  - by rewrite eqb_false_sym.
  - destruct (String.eqb k0 k) eqn:E; simpl.
    + apply String.eqb_eq in E. subst k0. rewrite eqb_false_sym by done.
      by apply raw_get_other_headers.
    + by rewrite IH.
Qed.

Lemma other_headers_idemp (l : list (string * string)) (k : string) :
  other_headers (other_headers l k) k = other_headers l k.
Proof.
  induction l as [|[k0 v0] t IH]; [done|].
  simpl. destruct (String.eqb k0 k) eqn:E; simpl; [done|].
  by rewrite E, IH.
Qed.

Lemma other_headers_set_first (l : list (string * string)) (k v : string) :
  other_headers (set_first l k v) k = other_headers l k.
Proof.
  induction l as [|[k0 v0] t IH]; simpl.
  - by rewrite String.eqb_refl.
  - destruct (String.eqb k0 k) eqn:E; simpl.
    + rewrite String.eqb_refl. simpl. apply other_headers_idemp.
    + by rewrite E, IH.
Qed.

Lemma set_first_absent (l : list (string * string)) (k v : string) :
  raw_get l k = None -> set_first l k v = l ++ [(k, v)].
Proof.
  induction l as [|[k0 v0] t IH]; simpl; [done|].
  destruct (String.eqb k0 k); [done|]. intros H. by rewrite IH.
Qed.

End HeaderFacts.

(** ** The correlation middleware *)

Module MiddlewareFacts.
Import Middleware.

Section WithEnv.
Context {Env : Type}.
Implicit Types (call_next : M (St Env) Response) (st : St Env).

(** Up to its call of the pipeline, [dispatch] has drawn one identifier,
    stored it in the request state and logged the start record. *)
Lemma at_call_eq st :
  at_call st =
  mkSt (mkRequest (method (request st)) (url_path (request st))
                  (<["request_id" := PStr (fresh_id st)]> (state (request st))))
       (logger st ++ [mkLogRecord INFO
          (started_form (method (request st)) (url_path (request st)) (fresh_id st))])
       (uuid_source st) (S (uuid_count st)) (env st).
Proof. reflexivity. Qed.

(** [dispatch] is its pipeline run from [at_call st], followed on a return
    by the header update and the completion record, and by nothing on a
    raise. *)
Lemma dispatch_at_call call_next st :
  dispatch call_next st =
  match call_next (at_call st) with
  | (Returned response, st2) =>
      (Returned (set_response_header response "X-Request-ID" (fresh_id st)),
       mkSt (request st2)
            (logger st2 ++ [mkLogRecord INFO
               (completed_form (method (request st2)) (url_path (request st2))
                               (fresh_id st))])
            (uuid_source st2) (uuid_count st2) (env st2))
  | (Raised e, st2) => (Raised e, st2)
  end.
Proof.
  rewrite at_call_eq. unfold dispatch, bind. simpl.
  destruct (call_next _) as [[response|e] st2]; reflexivity.
Qed.

Lemma header_set_get (response : Response) (key value : string) :
  headers_get (raw_headers (set_response_header response key value)) key = Some value.
Proof.
  unfold headers_get. simpl.
  rewrite HeaderFacts.headers_setitem_set_first.
  apply HeaderFacts.raw_get_set_first.
Qed.

(** C1: when the downstream pipeline returns a response, one identifier,
    the one [dispatch] generated, is the value of the response's
    [X-Request-ID] header, the value of [request.state.request_id] that the
    pipeline is given (and that [dispatch] never touches again), and the
    identifier in the start record and in the completion record. *)
Theorem dispatch_one_request_id call_next st (response0 : Response) (st2 : St Env) :
  call_next (at_call st) = (Returned response0, st2) ->
  exists request_id response st',
    dispatch call_next st = (Returned response, st')
    /\ request_id = fresh_id st
    /\ headers_get (raw_headers response) "X-Request-ID" = Some request_id
    /\ state (request (at_call st)) !! "request_id" = Some (PStr request_id)
    /\ request st' = request st2
    /\ logger (at_call st) =
         logger st ++ [mkLogRecord INFO
           (started_form (method (request st)) (url_path (request st)) request_id)]
    /\ logger st' =
         logger st2 ++ [mkLogRecord INFO
           (completed_form (method (request st2)) (url_path (request st2)) request_id)].
Proof.
  intros Hcall. pose proof (dispatch_at_call call_next st) as Hd.
  rewrite Hcall in Hd.
  eexists (fresh_id st), _, _. split; [exact Hd|].
  split; [reflexivity|]. split; [apply header_set_get|].
  rewrite at_call_eq. simpl. split; [apply lookup_insert_eq|]. auto.
Qed.

(** C2, as amended: with a pipeline that does not write to the module's
    logger, [dispatch] emits the start record and then the completion record,
    and nothing else, when the pipeline returns; when the pipeline raises it
    emits the start record alone. *)
Theorem dispatch_log_records call_next st :
  keeps_logger call_next ->
  match dispatch call_next st with
  | (Returned _, st') =>
      logger st' =
      logger st ++
        [mkLogRecord INFO
           (started_form (method (request st)) (url_path (request st)) (fresh_id st));
         mkLogRecord INFO
           (completed_form (method (request st')) (url_path (request st')) (fresh_id st))]
  | (Raised _, st') =>
      logger st' =
      logger st ++
        [mkLogRecord INFO
           (started_form (method (request st)) (url_path (request st)) (fresh_id st))]
  end.
Proof.
  intros Hkeep. rewrite dispatch_at_call.
  pose proof (Hkeep (at_call st)) as Hl.
  destruct (call_next (at_call st)) as [[response|e] st2]; simpl in *.
  - rewrite Hl, <- app_assoc. reflexivity.
  - rewrite Hl. reflexivity.
Qed.

(** C3: when the downstream pipeline returns a response, [dispatch] returns
    it with the same status code, the same body and the same entries under
    every other header name, in the same order; [X-Request-ID] now reads the
    generated identifier, and is a new last entry when the pipeline had not
    set that header. *)
Theorem dispatch_changes_one_header call_next st (response0 : Response) (st2 : St Env) :
  call_next (at_call st) = (Returned response0, st2) ->
  exists response st',
    dispatch call_next st = (Returned response, st')
    /\ status_code response = status_code response0
    /\ body response = body response0
    /\ headers_get (raw_headers response) "X-Request-ID" = Some (fresh_id st)
    /\ other_headers (raw_headers response) (lower "X-Request-ID")
       = other_headers (raw_headers response0) (lower "X-Request-ID")
    /\ (forall key, lower key <> lower "X-Request-ID" ->
          headers_get (raw_headers response) key = headers_get (raw_headers response0) key)
    /\ (headers_get (raw_headers response0) "X-Request-ID" = None ->
          raw_headers response = raw_headers response0 ++ [("x-request-id", fresh_id st)]).
Proof.
  intros Hcall. pose proof (dispatch_at_call call_next st) as Hd.
  rewrite Hcall in Hd. eexists _, _. split; [exact Hd|].
  split; [reflexivity|]. split; [reflexivity|].
  split; [apply header_set_get|].
  unfold headers_get. cbn [raw_headers set_response_header].
  rewrite HeaderFacts.headers_setitem_set_first.
  split; [apply HeaderFacts.other_headers_set_first|].
  split.
  - intros key Hne. by apply HeaderFacts.raw_get_set_first_ne.
  - intros Habs. by apply HeaderFacts.set_first_absent.
Qed.

(** C4: when the downstream pipeline raises, [dispatch] raises the same
    exception and leaves the state as the pipeline left it; it returns no
    response, so there is none it could have put a header on. *)
Theorem dispatch_propagates_failure call_next st (e : PyExn) (st2 : St Env) :
  call_next (at_call st) = (Raised e, st2) ->
  dispatch call_next st = (Raised e, st2)
  /\ forall response st', dispatch call_next st <> (Returned response, st').
Proof.
  intros Hcall. rewrite dispatch_at_call, Hcall. split; [reflexivity|].
  intros response st'. discriminate.
Qed.

(** C5, as amended: for every request, the record [dispatch] emits before
    it calls the pipeline is
    [Request started: <METHOD> <PATH> (request_id: <id>)]; once the pipeline
    has returned, the record it emits is
    [Request completed: <METHOD> <PATH> (request_id: <id>)]: both at level
    INFO, with the method and the URL path the request then has and the
    identifier [dispatch] generated.  After a pipeline that raised it emits
    no further record. *)
Theorem dispatch_record_forms call_next st :
  logger (at_call st) =
    logger st ++ [mkLogRecord INFO
      (started_form (method (request st)) (url_path (request st)) (fresh_id st))]
  /\ started_form "GET" "/rag" "7" = "Request started: GET /rag (request_id: 7)"
  /\ completed_form "GET" "/rag" "7" = "Request completed: GET /rag (request_id: 7)"
  /\ match call_next (at_call st) with
     | (Returned _, st2) =>
         logger (dispatch call_next st).2 =
           logger st2 ++ [mkLogRecord INFO
             (completed_form (method (request st2)) (url_path (request st2))
                             (fresh_id st))]
     | (Raised _, st2) => logger (dispatch call_next st).2 = logger st2
     end.
Proof.
  split; [by rewrite at_call_eq|]. split; [reflexivity|]. split; [reflexivity|].
  rewrite dispatch_at_call.
  destruct (call_next (at_call st)) as [[response|e] st2]; reflexivity.
Qed.

(** C10: when the downstream pipeline raises, and has itself left the
    module's logger and [request.state.request_id] alone, the state
    [dispatch] leaves behind still holds the generated identifier in
    [request.state.request_id] and the start record in the log, so it differs
    from the state before the call. *)
Theorem dispatch_failure_keeps_effects call_next st (e : PyExn) (st' : St Env) :
  keeps_logger call_next ->
  keeps_request_id call_next ->
  dispatch call_next st = (Raised e, st') ->
  state (request st') !! "request_id" = Some (PStr (fresh_id st))
  /\ logger st' =
       logger st ++ [mkLogRecord INFO
         (started_form (method (request st)) (url_path (request st)) (fresh_id st))]
  /\ st' <> st.
Proof.
  intros Hlog Hid Hd. rewrite dispatch_at_call in Hd.
  pose proof (Hlog (at_call st)) as Hl. pose proof (Hid (at_call st)) as Hi.
  destruct (call_next (at_call st)) as [[response|e0] st2]; [discriminate|].
  injection Hd as -> ->. rewrite at_call_eq in Hl, Hi. simpl in Hl, Hi.
  rewrite lookup_insert_eq in Hi.
  split; [exact Hi|]. split; [exact Hl|].
  intros ->. apply (f_equal length) in Hl. rewrite length_app in Hl. simpl in Hl. lia.
Qed.

End WithEnv.

(** The answering route on the sample request: one identifier in the header,
    in the request state and in both records. *)
Lemma dispatch_one_request_id_witness :
  answering (at_call sample_state)
  = (Returned sample_response, (answering (at_call sample_state)).2)
  /\ exists request_id response st',
      dispatch answering sample_state = (Returned response, st')
      /\ request_id = "1b4e28ba-2fa1-41d2-883f-0016d3cca427"
      /\ headers_get (raw_headers response) "X-Request-ID" = Some request_id
      /\ state (request (at_call sample_state)) !! "request_id" = Some (PStr request_id)
      /\ request st' = request (answering (at_call sample_state)).2
      /\ logger (at_call sample_state) =
           [mkLogRecord INFO (started_form "GET" "/rag" request_id)]
      /\ logger st' =
           logger (answering (at_call sample_state)).2
           ++ [mkLogRecord INFO (completed_form "GET" "/rag" request_id)].
Proof.
  split; [reflexivity|].
  exact (dispatch_one_request_id answering sample_state sample_response _ eq_refl).
Defined.

(** C2, as stated, fails: the failing route on the sample request leaves one
    record of [dispatch] in the log, not two. *)
Lemma dispatch_failing_not_two_records :
  keeps_logger failing
  /\ ~ exists r1 r2 : LogRecord,
        logger (dispatch failing sample_state).2 = logger sample_state ++ [r1; r2].
Proof.
  split; [intros st; reflexivity|].
  intros (r1 & r2 & H). vm_compute in H. discriminate H.
Qed.

(** C5, as stated, fails: after the failing route the log does not hold a
    start record followed by a completion record, whatever the identifier. *)
Lemma dispatch_failing_no_completed_record :
  keeps_logger failing
  /\ ~ exists id : string,
        logger (dispatch failing sample_state).2 =
        logger sample_state
        ++ [mkLogRecord INFO (started_form "GET" "/rag" id);
            mkLogRecord INFO (completed_form "GET" "/rag" id)].
Proof.
  split; [intros st; reflexivity|].
  intros (id & H). apply (f_equal length) in H. vm_compute in H. discriminate H.
Qed.

Lemma dispatch_log_records_witness :
  keeps_logger answering
  /\ logger (dispatch answering sample_state).2 =
       [mkLogRecord INFO
          "Request started: GET /rag (request_id: 1b4e28ba-2fa1-41d2-883f-0016d3cca427)";
        mkLogRecord INFO
          "Request completed: GET /rag (request_id: 1b4e28ba-2fa1-41d2-883f-0016d3cca427)"].
Proof.
  assert (keeps_logger answering) as Hkeep by (intros st; reflexivity).
  split; [exact Hkeep|].
  exact (dispatch_log_records answering sample_state Hkeep).
Defined.

Lemma dispatch_changes_one_header_witness :
  answering (at_call sample_state)
  = (Returned sample_response, (answering (at_call sample_state)).2)
  /\ exists response st',
      dispatch answering sample_state = (Returned response, st')
      /\ status_code response = 200%Z
      /\ body response = []
      /\ headers_get (raw_headers response) "X-Request-ID"
         = Some "1b4e28ba-2fa1-41d2-883f-0016d3cca427"
      /\ other_headers (raw_headers response) "x-request-id"
         = [("content-type", "application/json"); ("content-length", "2")]
      /\ (forall key, lower key <> "x-request-id" ->
            headers_get (raw_headers response) key
            = headers_get (raw_headers sample_response) key)
      /\ (headers_get (raw_headers sample_response) "X-Request-ID" = None ->
            raw_headers response =
            raw_headers sample_response
            ++ [("x-request-id", "1b4e28ba-2fa1-41d2-883f-0016d3cca427")]).
Proof.
  split; [reflexivity|].
  exact (dispatch_changes_one_header answering sample_state sample_response _ eq_refl).
Defined.

Lemma dispatch_propagates_failure_witness :
  failing (at_call sample_state)
  = (Raised (OtherError "ValueError" "no such product"), at_call sample_state)
  /\ dispatch failing sample_state
     = (Raised (OtherError "ValueError" "no such product"), at_call sample_state).
Proof.
  split; [reflexivity|].
  exact (proj1 (dispatch_propagates_failure failing sample_state _ _ eq_refl)).
Defined.

Lemma dispatch_failure_keeps_effects_witness :
  keeps_logger failing /\ keeps_request_id failing
  /\ state (request (dispatch failing sample_state).2) !! "request_id"
     = Some (PStr "1b4e28ba-2fa1-41d2-883f-0016d3cca427")
  /\ logger (dispatch failing sample_state).2 =
       [mkLogRecord INFO
          "Request started: GET /rag (request_id: 1b4e28ba-2fa1-41d2-883f-0016d3cca427)"]
  /\ (dispatch failing sample_state).2 <> sample_state.
Proof.
  assert (keeps_logger failing) as Hlog by (intros st; reflexivity).
  assert (keeps_request_id failing) as Hid by (intros st; reflexivity).
  split; [exact Hlog|]. split; [exact Hid|].
  exact (dispatch_failure_keeps_effects failing sample_state _ _ Hlog Hid eq_refl).
Defined.

End MiddlewareFacts.

(** ** The prompt-template loader *)

Module LoaderFacts.
Import PromptManagement Samples.

Section WithLibraries.
Context {Tpl : Type} (safe_load : string -> Outcome PyVal) (compile : string -> Outcome Tpl).
Implicit Types (sys : Sys) (yaml_file prompt_key text : string).

(** C8: for a path that does not exist or that [open] cannot read, the
    loader raises an [OSError] ([FileNotFoundError] for a missing path), and
    the only call it has made is the [open]: the parser was never called. *)
Theorem unreadable_path_raises_before_parsing sys yaml_file prompt_key :
  (forall text, files sys !! yaml_file <> Some (RegularFile true text)) ->
  exists e,
    prompt_template_config safe_load compile yaml_file prompt_key sys
    = (Raised e, mkSys (files sys) (calls sys ++ [CallOpen yaml_file]))
    /\ is_OSError e = true
    /\ (files sys !! yaml_file = None -> e = FileNotFoundError yaml_file).
Proof.
  intros Hno. unfold prompt_template_config, bind, with_open, open_r.
  destruct (files sys !! yaml_file) as [[[|] content|]|] eqn:E.
  - by destruct (Hno content).
  - eexists; split; [reflexivity|]. split; [reflexivity|]. discriminate.
  - eexists; split; [reflexivity|]. split; [reflexivity|]. discriminate.
  - eexists; split; [reflexivity|]. split; [reflexivity|]. done.
Qed.

(** A readable file: the loader parses its text, subscripts twice and
    compiles what it found. *)
Lemma loader_opened sys yaml_file prompt_key text :
  files sys !! yaml_file = Some (RegularFile true text) ->
  prompt_template_config safe_load compile yaml_file prompt_key sys =
  match safe_load text with
  | Raised e => (Raised e, after_load sys yaml_file text)
  | Returned config =>
      match getitem config "prompts" with
      | Raised e => (Raised e, after_load sys yaml_file text)
      | Returned prompts =>
          match getitem prompts prompt_key with
          | Raised e => (Raised e, after_load sys yaml_file text)
          | Returned template_content =>
              Template compile template_content (after_load sys yaml_file text)
          end
      end
  end.
Proof.
  intros Hfile.
  unfold prompt_template_config, bind, with_open, open_r, yaml_safe_load,
    lift, ret, after_load.
  rewrite Hfile. unfold record_call. simpl. rewrite <- !app_assoc. simpl.
  destruct (safe_load text) as [config|e]; [|reflexivity].
  destruct (getitem config "prompts") as [prompts|e]; [|reflexivity].
  destruct (getitem prompts prompt_key) as [content|e]; [|reflexivity].
  destruct (match content with PStr t => compile t | _ => Raised TypeError end);
    reflexivity.
Qed.

(** C7, as amended: when the parsed document is a mapping without a
    [prompts] key, or with a [prompts] mapping that lacks the requested key,
    the loader raises [KeyError] for the missing key, and its calls end with
    the closing of the file: the template engine was never called. *)
Theorem missing_key_raises_KeyError sys yaml_file prompt_key text
    (items : list (PyVal * PyVal)) :
  files sys !! yaml_file = Some (RegularFile true text) ->
  safe_load text = Returned (PDict items) ->
  dict_get items "prompts" = None
  \/ (exists entries, dict_get items "prompts" = Some (PDict entries)
                     /\ dict_get entries prompt_key = None) ->
  exists key,
    prompt_template_config safe_load compile yaml_file prompt_key sys
    = (Raised (KeyError key), after_load sys yaml_file text)
    /\ (key = "prompts" \/ key = prompt_key)
    /\ existsb is_CallTemplate
         [CallOpen yaml_file; CallSafeLoad text; CallClose yaml_file] = false.
Proof.
  intros Hfile Hload Habsent. rewrite (loader_opened _ _ _ text Hfile), Hload.
  destruct Habsent as [Hnone|(entries & Hsome & Hnone)]; simpl.
  - rewrite Hnone. exists "prompts". auto.
  - rewrite Hsome. simpl. rewrite Hnone. exists prompt_key. auto.
Qed.

(** C9: when the file parses to anything but a mapping, the loader raises
    [TypeError], which is not a [KeyError], from the first subscript; and an
    empty file is such a file, since it loads as [None]. *)
Theorem non_mapping_document_raises_TypeError sys yaml_file prompt_key text
    (config : PyVal) :
  files sys !! yaml_file = Some (RegularFile true text) ->
  safe_load text = Returned config ->
  is_dict config = false ->
  (exists e,
     prompt_template_config safe_load compile yaml_file prompt_key sys
     = (Raised e, after_load sys yaml_file text)
     /\ is_TypeError e = true /\ is_KeyError e = false)
  /\ Reference.safe_load "" = Returned PNone
  /\ is_dict PNone = false.
Proof.
  intros Hfile Hload Hshape. split; [|split; reflexivity].
  exists TypeError. rewrite (loader_opened _ _ _ text Hfile), Hload.
  destruct config; try discriminate Hshape; auto.
Qed.

End WithLibraries.

(** C6: with the document [{"prompts": {"greeting": "Hello, {{ name }}!"}}]
    at the supplied path and the key [greeting], the loader returns a
    template, and rendering it with [name] bound to [World] gives
    [Hello, World!]. *)
Theorem greeting_renders_hello_world (sys : Sys) (yaml_file : string) :
  files sys !! yaml_file = Some (RegularFile true greeting_document) ->
  exists template sys',
    prompt_template_config Reference.safe_load Reference.compile yaml_file "greeting" sys
    = (Returned template, sys')
    /\ Reference.render template {[ "name" := "World" ]} = "Hello, World!".
Proof.
  intros Hfile. rewrite (loader_opened _ _ _ _ _ _ Hfile).
  assert (Reference.safe_load greeting_document
          = Returned (PDict [(PStr "prompts",
                              PDict [(PStr "greeting", PStr "Hello, {{ name }}!")])]))
    as -> by (vm_compute; reflexivity).
  cbn [getitem dict_get String.eqb Ascii.eqb Bool.eqb]. unfold Template.
  assert (Reference.compile "Hello, {{ name }}!"
          = Returned [Reference.Data "Hello, "; Reference.Var "name"; Reference.Data "!"])
    as -> by (vm_compute; reflexivity).
  eexists _, _. split; [reflexivity|]. vm_compute. reflexivity.
Qed.

Lemma greeting_renders_hello_world_witness :
  files (config_dir greeting_document) !! "prompts.yaml"
  = Some (RegularFile true greeting_document)
  /\ exists template sys',
      prompt_template_config Reference.safe_load Reference.compile
        "prompts.yaml" "greeting" (config_dir greeting_document)
      = (Returned template, sys')
      /\ Reference.render template {[ "name" := "World" ]} = "Hello, World!".
Proof.
  split; [reflexivity|].
  exact (greeting_renders_hello_world (config_dir greeting_document) "prompts.yaml"
           eq_refl).
Defined.

(** C7, as stated, fails: the document [[]] holds no [prompts] entry, and the
    loader raises [TypeError] on it, not [KeyError]. *)
Lemma missing_key_in_sequence_not_KeyError :
  ~ (forall (sys : Sys) (yaml_file prompt_key text : string) (config : PyVal),
       files sys !! yaml_file = Some (RegularFile true text) ->
       Reference.safe_load text = Returned config ->
       entry_of config "prompts" = None
       \/ (exists prompts, entry_of config "prompts" = Some prompts
                          /\ entry_of prompts prompt_key = None) ->
       exists key sys',
         prompt_template_config Reference.safe_load Reference.compile
           yaml_file prompt_key sys
         = (Raised (KeyError key), sys')).
Proof.
  intros H.
  destruct (H (config_dir "[]") "prompts.yaml" "greeting" "[]" (PList [])
              eq_refl eq_refl (or_introl eq_refl)) as (key & sys' & Hrun).
  vm_compute in Hrun. discriminate Hrun.
Qed.

Lemma missing_key_raises_KeyError_witness :
  files (config_dir misplaced_document) !! "prompts.yaml"
  = Some (RegularFile true misplaced_document)
  /\ Reference.safe_load misplaced_document
     = Returned (PDict [(PStr "templates", PDict [(PStr "greeting", PStr "Hello")])])
  /\ exists key,
      prompt_template_config Reference.safe_load Reference.compile
        "prompts.yaml" "greeting" (config_dir misplaced_document)
      = (Raised (KeyError key),
         after_load (config_dir misplaced_document) "prompts.yaml" misplaced_document)
      /\ (key = "prompts" \/ key = "greeting")
      /\ existsb is_CallTemplate
           [CallOpen "prompts.yaml"; CallSafeLoad misplaced_document;
            CallClose "prompts.yaml"] = false.
Proof.
  split; [reflexivity|]. split; [vm_compute; reflexivity|].
  apply (missing_key_raises_KeyError Reference.safe_load Reference.compile
           (config_dir misplaced_document) "prompts.yaml" "greeting" misplaced_document
           [(PStr "templates", PDict [(PStr "greeting", PStr "Hello")])]).
  - reflexivity.
  - vm_compute; reflexivity.
  - left; reflexivity.
Defined.

Lemma unreadable_path_raises_before_parsing_witness :
  (forall text,
     files (config_dir greeting_document) !! "missing.yaml" <> Some (RegularFile true text))
  /\ exists e,
      prompt_template_config Reference.safe_load Reference.compile
        "missing.yaml" "greeting" (config_dir greeting_document)
      = (Raised e, mkSys (files (config_dir greeting_document)) [CallOpen "missing.yaml"])
      /\ is_OSError e = true
      /\ (files (config_dir greeting_document) !! "missing.yaml" = None ->
          e = FileNotFoundError "missing.yaml").
Proof.
  assert (forall text,
            files (config_dir greeting_document) !! "missing.yaml"
            <> Some (RegularFile true text)) as Hno
    by (intros text; vm_compute; discriminate).
  split; [exact Hno|].
  exact (unreadable_path_raises_before_parsing Reference.safe_load Reference.compile
           (config_dir greeting_document) "missing.yaml" "greeting" Hno).
Defined.

Lemma non_mapping_document_raises_TypeError_witness :
  files (config_dir "") !! "prompts.yaml" = Some (RegularFile true "")
  /\ Reference.safe_load "" = Returned PNone
  /\ is_dict PNone = false
  /\ exists e,
      prompt_template_config Reference.safe_load Reference.compile
        "prompts.yaml" "greeting" (config_dir "")
      = (Raised e, after_load (config_dir "") "prompts.yaml" "")
      /\ is_TypeError e = true /\ is_KeyError e = false.
Proof.
  split; [reflexivity|]. split; [reflexivity|]. split; [reflexivity|].
  exact (proj1 (non_mapping_document_raises_TypeError Reference.safe_load
                  Reference.compile (config_dir "") "prompts.yaml" "greeting" ""
                  PNone eq_refl eq_refl eq_refl)).
Defined.

End LoaderFacts.

(** * Further properties *)

(** ** The header list, continued *)

Module HeaderMore.
Import Middleware.

(** The entries of a raw header list under the name [key]. *)
Lemma named_other_headers (l : list (string * string)) (k : string) :
  List.filter (fun item => String.eqb item.1 k) (other_headers l k) = [].
Proof.
  induction l as [|[k0 v0] t IH]; [done|].
  simpl. destruct (String.eqb k0 k) eqn:E; simpl; [done|]. by rewrite E.
Qed.

Lemma named_set_first (l : list (string * string)) (k v : string) :
  List.filter (fun item => String.eqb item.1 k) (set_first l k v) = [(k, v)].
Proof.
  induction l as [|[k0 v0] t IH]; simpl.
  - by rewrite String.eqb_refl.
  - destruct (String.eqb k0 k) eqn:E; simpl.
    + by rewrite String.eqb_refl, named_other_headers.
    + by rewrite E.
Qed.

Lemma set_first_twice (l : list (string * string)) (k v v' : string) :
  set_first (set_first l k v) k v' = set_first l k v'.
Proof.
  induction l as [|[k0 v0] t IH]; simpl.
  - by rewrite String.eqb_refl.
  - destruct (String.eqb k0 k) eqn:E; simpl.
    + by rewrite String.eqb_refl, HeaderFacts.other_headers_idemp.
    + by rewrite E, IH.
Qed.

End HeaderMore.

(** ** The correlation middleware, continued *)

Module MiddlewareMore.
Import Middleware MoreSamples.

Section WithEnv.
Context {Env : Type}.
Implicit Types (call_next : M (St Env) Response) (st : St Env).

(** X1: the response [dispatch] returns carries exactly one raw header entry
    named [x-request-id], holding the generated identifier, however many the
    pipeline had set; and the header reads that identifier under every
    spelling of its name. *)
Theorem dispatch_single_header_entry call_next st (response0 : Response) (st2 : St Env) :
  call_next (at_call st) = (Returned response0, st2) ->
  exists response st',
    dispatch call_next st = (Returned response, st')
    /\ List.filter (fun item => String.eqb item.1 "x-request-id") (raw_headers response)
       = [("x-request-id", fresh_id st)]
    /\ forall key, lower key = "x-request-id" ->
         headers_get (raw_headers response) key = Some (fresh_id st).
Proof.
  intros Hcall. pose proof (MiddlewareFacts.dispatch_at_call call_next st) as Hd.
  rewrite Hcall in Hd. eexists _, _. split; [exact Hd|].
  cbn [raw_headers set_response_header].
  rewrite HeaderFacts.headers_setitem_set_first.
  change (lower "X-Request-ID") with "x-request-id".
  split; [apply HeaderMore.named_set_first|].
  intros key Hkey. unfold headers_get. rewrite Hkey.
  apply HeaderFacts.raw_get_set_first.
Qed.

(** X2: the records of [dispatch] bracket those of the pipeline: when the
    pipeline appends the records [mid] to the module's log, the log ends up
    as the old log, the start record, [mid], and then the completion record
    if the pipeline returned, or nothing more if it raised. *)
Theorem dispatch_brackets_pipeline_records call_next st
    (o : Outcome Response) (st2 : St Env) (mid : list LogRecord) :
  call_next (at_call st) = (o, st2) ->
  logger st2 = logger (at_call st) ++ mid ->
  logger (dispatch call_next st).2 =
    logger st
    ++ [mkLogRecord INFO
          (started_form (method (request st)) (url_path (request st)) (fresh_id st))]
    ++ mid
    ++ match o with
       | Returned _ =>
           [mkLogRecord INFO
              (completed_form (method (request st2)) (url_path (request st2))
                              (fresh_id st))]
       | Raised _ => []
       end.
Proof.
  intros Hcall Hmid. rewrite MiddlewareFacts.dispatch_at_call, Hcall.
  rewrite MiddlewareFacts.at_call_eq in Hmid. simpl in Hmid.
  destruct o as [response|e]; simpl; rewrite Hmid.
  - by rewrite <- !app_assoc.
  - by rewrite <- !app_assoc, app_nil_r.
Qed.

(** X3: up to its call of the pipeline, [dispatch] changes nothing of the
    request but the [request_id] attribute of its state: the method, the URL
    path and every other attribute are as before, and so is the environment;
    and after the call it changes nothing of what the pipeline left but the
    log. *)
Theorem dispatch_frame call_next st :
  (forall name, name <> "request_id" ->
     state (request (at_call st)) !! name = state (request st) !! name)
  /\ method (request (at_call st)) = method (request st)
  /\ url_path (request (at_call st)) = url_path (request st)
  /\ env (at_call st) = env st
  /\ request (dispatch call_next st).2 = request (call_next (at_call st)).2
  /\ env (dispatch call_next st).2 = env (call_next (at_call st)).2
  /\ uuid_count (dispatch call_next st).2 = uuid_count (call_next (at_call st)).2.
Proof.
  rewrite MiddlewareFacts.dispatch_at_call, MiddlewareFacts.at_call_eq.
  split; [|by destruct (call_next _) as [[response|e] st2]].
  intros name Hne. simpl. by apply lookup_insert_ne.
Qed.

(** X4: with the middleware installed twice, the inner one draws a second
    identifier: the route sees the inner identifier in
    [request.state.request_id], the response carries the outer one as its
    only [X-Request-ID] entry, and the log reads start (outer), start
    (inner), completed (inner), completed (outer). *)
Theorem dispatch_nested call_next st (response0 : Response) (st3 : St Env) :
  call_next (at_call (at_call st)) = (Returned response0, st3) ->
  logger st3 = logger (at_call (at_call st)) ->
  let outer := uuid_source st (uuid_count st) in
  let inner := uuid_source st (S (uuid_count st)) in
  state (request (at_call (at_call st))) !! "request_id" = Some (PStr inner)
  /\ exists response st',
      dispatch (dispatch call_next) st = (Returned response, st')
      /\ List.filter (fun item => String.eqb item.1 "x-request-id") (raw_headers response)
         = [("x-request-id", outer)]
      /\ logger st' =
           logger st
           ++ [mkLogRecord INFO
                 (started_form (method (request st)) (url_path (request st)) outer);
               mkLogRecord INFO
                 (started_form (method (request st)) (url_path (request st)) inner);
               mkLogRecord INFO
                 (completed_form (method (request st3)) (url_path (request st3)) inner);
               mkLogRecord INFO
                 (completed_form (method (request st3)) (url_path (request st3)) outer)].
Proof.
  intros Hcall Hlog outer inner.
  split; [rewrite !MiddlewareFacts.at_call_eq; simpl; apply lookup_insert_eq|].
  pose proof (MiddlewareFacts.dispatch_at_call (dispatch call_next) st) as Hout.
  pose proof (MiddlewareFacts.dispatch_at_call call_next (at_call st)) as Hin.
  rewrite Hcall in Hin. rewrite Hin in Hout.
  eexists _, _. split; [exact Hout|].
  cbn [raw_headers set_response_header logger request].
  rewrite !HeaderFacts.headers_setitem_set_first, HeaderMore.set_first_twice.
  change (lower "X-Request-ID") with "x-request-id".
  split; [apply HeaderMore.named_set_first|].
  rewrite Hlog, !MiddlewareFacts.at_call_eq. simpl.
  rewrite <- !app_assoc. reflexivity.
Qed.

(** X5: each call of [dispatch] takes the next draw of the random source:
    after a request whose pipeline drew no identifier of its own, whether it
    returned or raised, the next request is stamped with the draw that
    follows the first request's. *)
Theorem dispatch_successive_ids call_next call_next' st :
  uuid_count (call_next (at_call st)).2 = uuid_count (at_call st) ->
  uuid_source (call_next (at_call st)).2 = uuid_source (at_call st) ->
  let st1 := (dispatch call_next st).2 in
  fresh_id st1 = uuid_source st (S (uuid_count st))
  /\ state (request (at_call st1)) !! "request_id"
     = Some (PStr (uuid_source st (S (uuid_count st))))
  /\ forall response0 st2,
       call_next' (at_call st1) = (Returned response0, st2) ->
       exists response st',
         dispatch call_next' st1 = (Returned response, st')
         /\ headers_get (raw_headers response) "X-Request-ID"
            = Some (uuid_source st (S (uuid_count st))).
Proof.
  intros Hcount Hsource st1.
  assert (fresh_id st1 = uuid_source st (S (uuid_count st))) as Hid.
  { unfold st1, fresh_id. rewrite MiddlewareFacts.dispatch_at_call.
    destruct (call_next (at_call st)) as [[response|e] st2];
      cbn [snd uuid_source uuid_count] in *; rewrite Hcount, Hsource;
      reflexivity. }
  split; [exact Hid|]. split.
  - rewrite MiddlewareFacts.at_call_eq. simpl. rewrite lookup_insert_eq.
    do 2 f_equal. exact Hid.
  - intros response0 st2 Hcall.
    rewrite (MiddlewareFacts.dispatch_at_call call_next' st1), Hcall.
    eexists _, _. split; [reflexivity|].
    rewrite <- Hid. apply MiddlewareFacts.header_set_get.
Qed.

End WithEnv.

Lemma dispatch_single_header_entry_witness :
  restamping (at_call sample_state) = (Returned stamped_response, at_call sample_state)
  /\ exists response st',
      dispatch restamping sample_state = (Returned response, st')
      /\ List.filter (fun item => String.eqb item.1 "x-request-id") (raw_headers response)
         = [("x-request-id", "1b4e28ba-2fa1-41d2-883f-0016d3cca427")]
      /\ forall key, lower key = "x-request-id" ->
           headers_get (raw_headers response) key
           = Some "1b4e28ba-2fa1-41d2-883f-0016d3cca427".
Proof.
  split; [reflexivity|].
  exact (dispatch_single_header_entry restamping sample_state stamped_response _ eq_refl).
Defined.

Lemma dispatch_brackets_pipeline_records_witness :
  chatty (at_call sample_state) = (Returned sample_response, (chatty (at_call sample_state)).2)
  /\ logger (chatty (at_call sample_state)).2
     = logger (at_call sample_state) ++ [mkLogRecord DEBUG "looking up products"]
  /\ logger (dispatch chatty sample_state).2 =
       [mkLogRecord INFO
          "Request started: GET /rag (request_id: 1b4e28ba-2fa1-41d2-883f-0016d3cca427)";
        mkLogRecord DEBUG "looking up products";
        mkLogRecord INFO
          "Request completed: GET /rag (request_id: 1b4e28ba-2fa1-41d2-883f-0016d3cca427)"].
Proof.
  split; [reflexivity|]. split; [reflexivity|].
  exact (dispatch_brackets_pipeline_records chatty sample_state _ _
           [mkLogRecord DEBUG "looking up products"] eq_refl eq_refl).
Defined.

Lemma dispatch_nested_witness :
  answering (at_call (at_call fresh_state))
  = (Returned sample_response, (answering (at_call (at_call fresh_state))).2)
  /\ logger (answering (at_call (at_call fresh_state))).2
     = logger (at_call (at_call fresh_state))
  /\ state (request (at_call (at_call fresh_state))) !! "request_id"
     = Some (PStr "6fa459ea-ee8a-4ca4-894e-db77e160355e")
  /\ exists response st',
      dispatch (dispatch answering) fresh_state = (Returned response, st')
      /\ List.filter (fun item => String.eqb item.1 "x-request-id") (raw_headers response)
         = [("x-request-id", "1b4e28ba-2fa1-41d2-883f-0016d3cca427")]
      /\ logger st' =
           [mkLogRecord INFO
              "Request started: POST /rag (request_id: 1b4e28ba-2fa1-41d2-883f-0016d3cca427)";
            mkLogRecord INFO
              "Request started: POST /rag (request_id: 6fa459ea-ee8a-4ca4-894e-db77e160355e)";
            mkLogRecord INFO
              "Request completed: POST /rag (request_id: 6fa459ea-ee8a-4ca4-894e-db77e160355e)";
            mkLogRecord INFO
              "Request completed: POST /rag (request_id: 1b4e28ba-2fa1-41d2-883f-0016d3cca427)"].
Proof.
  split; [reflexivity|]. split; [reflexivity|].
  exact (dispatch_nested answering fresh_state sample_response _ eq_refl eq_refl).
Defined.

Lemma dispatch_successive_ids_witness :
  uuid_count (failing (at_call fresh_state)).2 = uuid_count (at_call fresh_state)
  /\ uuid_source (failing (at_call fresh_state)).2 = uuid_source (at_call fresh_state)
  /\ fresh_id (dispatch failing fresh_state).2 = "6fa459ea-ee8a-4ca4-894e-db77e160355e"
  /\ state (request (at_call (dispatch failing fresh_state).2)) !! "request_id"
     = Some (PStr "6fa459ea-ee8a-4ca4-894e-db77e160355e")
  /\ forall response0 st2,
       answering (at_call (dispatch failing fresh_state).2) = (Returned response0, st2) ->
       exists response st',
         dispatch answering (dispatch failing fresh_state).2 = (Returned response, st')
         /\ headers_get (raw_headers response) "X-Request-ID"
            = Some "6fa459ea-ee8a-4ca4-894e-db77e160355e".
Proof.
  split; [reflexivity|]. split; [reflexivity|].
  exact (dispatch_successive_ids failing answering fresh_state eq_refl eq_refl).
Defined.

End MiddlewareMore.

(** ** The prompt-template loader, continued *)

Module LoaderMore.
Import PromptManagement Samples MoreSamples.

Section WithLibraries.
Context {Tpl : Type} (safe_load : string -> Outcome PyVal) (compile : string -> Outcome Tpl).
Implicit Types (sys : Sys) (yaml_file prompt_key text : string).

(** What a call returns and which calls it makes is decided by the node at
    [yaml_file] alone; the first call is the [open]. *)
Lemma loader_run sys yaml_file prompt_key :
  exists (o : Outcome Tpl) (rest : list Call),
    forall sys',
      files sys' !! yaml_file = files sys !! yaml_file ->
      prompt_template_config safe_load compile yaml_file prompt_key sys'
      = (o, mkSys (files sys') (calls sys' ++ CallOpen yaml_file :: rest)).
Proof.
  destruct (files sys !! yaml_file) as [[[|] text|]|] eqn:E.
  - destruct (safe_load text) as [config|e] eqn:Hload.
    2:{ eexists _, _. intros sys' H.
        rewrite (LoaderFacts.loader_opened _ _ sys' _ _ text H), Hload. reflexivity. }
    destruct (getitem config "prompts") as [prompts|e] eqn:Hp.
    2:{ eexists _, _. intros sys' H.
        rewrite (LoaderFacts.loader_opened _ _ sys' _ _ text H), Hload, Hp. reflexivity. }
    destruct (getitem prompts prompt_key) as [content|e] eqn:Hc.
    2:{ eexists _, _. intros sys' H.
        rewrite (LoaderFacts.loader_opened _ _ sys' _ _ text H), Hload, Hp, Hc.
        reflexivity. }
    eexists _, _. intros sys' H.
    rewrite (LoaderFacts.loader_opened _ _ sys' _ _ text H), Hload, Hp, Hc.
    unfold Template, after_load, record_call. simpl. rewrite <- app_assoc. reflexivity.
  - eexists _, _. intros sys' H.
    unfold prompt_template_config, bind, with_open, open_r. rewrite H. reflexivity.
  - eexists _, _. intros sys' H.
    unfold prompt_template_config, bind, with_open, open_r. rewrite H. reflexivity.
  - eexists _, _. intros sys' H.
    unfold prompt_template_config, bind, with_open, open_r. rewrite H. reflexivity.
Qed.

(** X6: the loader never changes the file system: after any call, returned
    or raised, every path holds what it held before. *)
Theorem loader_keeps_files sys yaml_file prompt_key :
  files (prompt_template_config safe_load compile yaml_file prompt_key sys).2 = files sys.
Proof.
  destruct (loader_run sys yaml_file prompt_key) as (o & rest & Hrun).
  by rewrite (Hrun sys eq_refl).
Qed.

(** X7: a file the loader opened is closed again before anything else
    happens, whatever the parser did: its calls are the [open], the
    [safe_load] on the file's text and the close, followed by at most one
    call of the template engine. *)
Theorem loader_closes_its_file sys yaml_file prompt_key text :
  files sys !! yaml_file = Some (RegularFile true text) ->
  exists rest,
    calls (prompt_template_config safe_load compile yaml_file prompt_key sys).2
    = calls sys ++ [CallOpen yaml_file; CallSafeLoad text; CallClose yaml_file] ++ rest
    /\ (rest = [] \/ exists source, rest = [CallTemplate source]).
Proof.
  intros Hfile. rewrite (LoaderFacts.loader_opened _ _ _ _ _ text Hfile).
  destruct (safe_load text) as [config|e];
    [|exists []; split; [by rewrite app_nil_r|by left]].
  destruct (getitem config "prompts") as [prompts|e];
    [|exists []; split; [by rewrite app_nil_r|by left]].
  destruct (getitem prompts prompt_key) as [content|e];
    [|exists []; split; [by rewrite app_nil_r|by left]].
  exists [CallTemplate content]. split; [|right; by exists content].
  unfold Template, after_load, record_call. simpl. by rewrite <- app_assoc.
Qed.

(** X8: an exception of the parser propagates unchanged: the file is closed,
    no subscript is taken and the template engine is not called. *)
Theorem parse_error_propagates sys yaml_file prompt_key text (e : PyExn) :
  files sys !! yaml_file = Some (RegularFile true text) ->
  safe_load text = Raised e ->
  prompt_template_config safe_load compile yaml_file prompt_key sys
  = (Raised e, after_load sys yaml_file text).
Proof.
  intros Hfile Hload.
  by rewrite (LoaderFacts.loader_opened _ _ _ _ _ text Hfile), Hload.
Qed.

(** X9: when the document is a mapping whose [prompts] entry is not itself a
    mapping, the second subscript raises [TypeError], for every prompt key,
    and the template engine is not called. *)
Theorem prompts_not_mapping_raises_TypeError sys yaml_file prompt_key text
    (items : list (PyVal * PyVal)) (prompts : PyVal) :
  files sys !! yaml_file = Some (RegularFile true text) ->
  safe_load text = Returned (PDict items) ->
  dict_get items "prompts" = Some prompts ->
  is_dict prompts = false ->
  prompt_template_config safe_load compile yaml_file prompt_key sys
  = (Raised TypeError, after_load sys yaml_file text).
Proof.
  intros Hfile Hload Hp Hshape.
  rewrite (LoaderFacts.loader_opened _ _ _ _ _ text Hfile), Hload. simpl.
  rewrite Hp. by destruct prompts.
Qed.

(** X10: when the entry under the prompt key is not a string, the loader
    hands it to [Template] all the same and raises [TypeError]; the
    compiler of template sources is never run on it. *)
Theorem non_string_template_raises_TypeError sys yaml_file prompt_key text
    (items entries : list (PyVal * PyVal)) (content : PyVal) :
  files sys !! yaml_file = Some (RegularFile true text) ->
  safe_load text = Returned (PDict items) ->
  dict_get items "prompts" = Some (PDict entries) ->
  dict_get entries prompt_key = Some content ->
  (forall source, content <> PStr source) ->
  prompt_template_config safe_load compile yaml_file prompt_key sys
  = (Raised TypeError, record_call (CallTemplate content) (after_load sys yaml_file text)).
Proof.
  intros Hfile Hload Hp Hc Hshape.
  rewrite (LoaderFacts.loader_opened _ _ _ _ _ text Hfile), Hload. simpl.
  rewrite Hp. simpl. rewrite Hc.
  destruct content; try reflexivity. by destruct (Hshape s).
Qed.

(** X11: an exception of the template compiler propagates unchanged, after
    the file has been closed. *)
Theorem template_error_propagates sys yaml_file prompt_key text
    (items entries : list (PyVal * PyVal)) (source : string) (e : PyExn) :
  files sys !! yaml_file = Some (RegularFile true text) ->
  safe_load text = Returned (PDict items) ->
  dict_get items "prompts" = Some (PDict entries) ->
  dict_get entries prompt_key = Some (PStr source) ->
  compile source = Raised e ->
  prompt_template_config safe_load compile yaml_file prompt_key sys
  = (Raised e,
     record_call (CallTemplate (PStr source)) (after_load sys yaml_file text)).
Proof.
  intros Hfile Hload Hp Hc He.
  rewrite (LoaderFacts.loader_opened _ _ _ _ _ text Hfile), Hload. simpl.
  rewrite Hp. simpl. rewrite Hc. simpl. by rewrite He.
Qed.

(** X12: the loader returns a template exactly when the path holds a
    readable file that parses to a mapping whose [prompts] entry is a mapping
    holding a string under the prompt key, and that string compiles; the
    template is then the compiled string. *)
Theorem loader_returns_iff sys yaml_file prompt_key (template : Tpl) (sys' : Sys) :
  prompt_template_config safe_load compile yaml_file prompt_key sys
  = (Returned template, sys')
  <->
  exists text items entries source,
    files sys !! yaml_file = Some (RegularFile true text)
    /\ safe_load text = Returned (PDict items)
    /\ dict_get items "prompts" = Some (PDict entries)
    /\ dict_get entries prompt_key = Some (PStr source)
    /\ compile source = Returned template
    /\ sys' = record_call (CallTemplate (PStr source)) (after_load sys yaml_file text).
Proof.
  split.
  - intros Hrun.
    destruct (files sys !! yaml_file) as [[[|] text|]|] eqn:Hfile.
    2-4: unfold prompt_template_config, bind, with_open, open_r in Hrun;
         rewrite Hfile in Hrun; discriminate Hrun.
    rewrite (LoaderFacts.loader_opened _ _ _ _ _ text Hfile) in Hrun.
    destruct (safe_load text) as [config|e] eqn:Hload; [|discriminate Hrun].
    destruct config as [| | | |?|items|?]; try discriminate Hrun.
    simpl in Hrun.
    destruct (dict_get items "prompts") as [prompts|] eqn:Hp; [|discriminate Hrun].
    destruct prompts as [| | | |?|entries|?]; try discriminate Hrun.
    simpl in Hrun.
    destruct (dict_get entries prompt_key) as [content|] eqn:Hc; [|discriminate Hrun].
    destruct content as [| | |source|?|?|?]; try discriminate Hrun.
    simpl in Hrun.
    destruct (compile source) as [t|e] eqn:Ht; [|discriminate Hrun].
    injection Hrun as -> <-.
    exists text, items, entries, source. auto 10.
  - intros (text & items & entries & source & Hfile & Hload & Hp & Hc & Ht & ->).
    rewrite (LoaderFacts.loader_opened _ _ _ _ _ text Hfile), Hload. simpl.
    rewrite Hp. simpl. rewrite Hc. simpl. by rewrite Ht.
Qed.

(** X13: nothing is cached: a second call with the same arguments opens and
    parses the file again, makes the same calls as the first, and ends as the
    first did. *)
Theorem loader_rereads_every_call sys yaml_file prompt_key :
  let first := prompt_template_config safe_load compile yaml_file prompt_key sys in
  let second := prompt_template_config safe_load compile yaml_file prompt_key first.2 in
  second.1 = first.1
  /\ exists rest,
      calls first.2 = calls sys ++ CallOpen yaml_file :: rest
      /\ calls second.2 = calls first.2 ++ CallOpen yaml_file :: rest.
Proof.
  intros first second.
  destruct (loader_run sys yaml_file prompt_key) as (o & rest & Hrun).
  assert (first = (o, mkSys (files sys) (calls sys ++ CallOpen yaml_file :: rest)))
    as Hfirst by (apply Hrun; reflexivity).
  assert (second = (o, mkSys (files first.2) (calls first.2 ++ CallOpen yaml_file :: rest)))
    as Hsecond by (apply Hrun; rewrite Hfirst; reflexivity).
  rewrite Hsecond. split; [by rewrite Hfirst|].
  exists rest. split; [by rewrite Hfirst|reflexivity].
Qed.

(** X14: the loader reads no file but the one it is given: on two file
    systems that agree at the path it returns or raises the same, whatever
    else they hold and whatever calls were made before. *)
Theorem loader_reads_only_its_file sys sys' yaml_file prompt_key :
  files sys' !! yaml_file = files sys !! yaml_file ->
  (prompt_template_config safe_load compile yaml_file prompt_key sys').1
  = (prompt_template_config safe_load compile yaml_file prompt_key sys).1.
Proof.
  intros Hsame.
  destruct (loader_run sys yaml_file prompt_key) as (o & rest & Hrun).
  by rewrite (Hrun sys' Hsame), (Hrun sys eq_refl).
Qed.

End WithLibraries.

Lemma loader_closes_its_file_witness :
  files (config_dir greeting_document) !! "prompts.yaml"
  = Some (RegularFile true greeting_document)
  /\ exists rest,
      calls (prompt_template_config Reference.safe_load Reference.compile
               "prompts.yaml" "greeting" (config_dir greeting_document)).2
      = calls (config_dir greeting_document)
        ++ [CallOpen "prompts.yaml"; CallSafeLoad greeting_document;
            CallClose "prompts.yaml"] ++ rest
      /\ (rest = [] \/ exists source, rest = [CallTemplate source]).
Proof.
  split; [reflexivity|].
  exact (loader_closes_its_file Reference.safe_load Reference.compile
           (config_dir greeting_document) "prompts.yaml" "greeting" greeting_document
           eq_refl).
Defined.

Lemma parse_error_propagates_witness :
  files (config_dir "{") !! "prompts.yaml" = Some (RegularFile true "{")
  /\ safe_load_strict "{" = Raised (YAMLError "expected the node content")
  /\ prompt_template_config safe_load_strict Reference.compile
       "prompts.yaml" "greeting" (config_dir "{")
     = (Raised (YAMLError "expected the node content"),
        after_load (config_dir "{") "prompts.yaml" "{").
Proof.
  split; [reflexivity|]. split; [reflexivity|].
  exact (parse_error_propagates safe_load_strict Reference.compile
           (config_dir "{") "prompts.yaml" "greeting" "{" _ eq_refl eq_refl).
Defined.

Lemma prompts_not_mapping_raises_TypeError_witness :
  files (config_dir prompts_list_document) !! "prompts.yaml"
  = Some (RegularFile true prompts_list_document)
  /\ Reference.safe_load prompts_list_document
     = Returned (PDict [(PStr "prompts", PList [])])
  /\ prompt_template_config Reference.safe_load Reference.compile
       "prompts.yaml" "greeting" (config_dir prompts_list_document)
     = (Raised TypeError,
        after_load (config_dir prompts_list_document) "prompts.yaml" prompts_list_document).
Proof.
  split; [reflexivity|]. split; [vm_compute; reflexivity|].
  apply (prompts_not_mapping_raises_TypeError Reference.safe_load Reference.compile
           (config_dir prompts_list_document) "prompts.yaml" "greeting"
           prompts_list_document [(PStr "prompts", PList [])] (PList [])).
  - reflexivity.
  - vm_compute; reflexivity.
  - reflexivity.
  - reflexivity.
Defined.

Lemma non_string_template_raises_TypeError_witness :
  files (config_dir list_template_document) !! "prompts.yaml"
  = Some (RegularFile true list_template_document)
  /\ Reference.safe_load list_template_document
     = Returned (PDict [(PStr "prompts", PDict [(PStr "greeting", PList [])])])
  /\ prompt_template_config Reference.safe_load Reference.compile
       "prompts.yaml" "greeting" (config_dir list_template_document)
     = (Raised TypeError,
        record_call (CallTemplate (PList []))
          (after_load (config_dir list_template_document) "prompts.yaml"
             list_template_document)).
Proof.
  split; [reflexivity|]. split; [vm_compute; reflexivity|].
  apply (non_string_template_raises_TypeError Reference.safe_load Reference.compile
           (config_dir list_template_document) "prompts.yaml" "greeting"
           list_template_document
           [(PStr "prompts", PDict [(PStr "greeting", PList [])])]
           [(PStr "greeting", PList [])] (PList [])).
  - reflexivity.
  - vm_compute; reflexivity.
  - reflexivity.
  - reflexivity.
  - intros source; discriminate.
Defined.

Lemma template_error_propagates_witness :
  files (config_dir unclosed_document) !! "prompts.yaml"
  = Some (RegularFile true unclosed_document)
  /\ Reference.compile "Hello, {{ name"
     = Raised (TemplateSyntaxError "unexpected end of template")
  /\ prompt_template_config Reference.safe_load Reference.compile
       "prompts.yaml" "greeting" (config_dir unclosed_document)
     = (Raised (TemplateSyntaxError "unexpected end of template"),
        record_call (CallTemplate (PStr "Hello, {{ name"))
          (after_load (config_dir unclosed_document) "prompts.yaml" unclosed_document)).
Proof.
  split; [reflexivity|]. split; [vm_compute; reflexivity|].
  apply (template_error_propagates Reference.safe_load Reference.compile
           (config_dir unclosed_document) "prompts.yaml" "greeting" unclosed_document
           [(PStr "prompts", PDict [(PStr "greeting", PStr "Hello, {{ name")])]
           [(PStr "greeting", PStr "Hello, {{ name")] "Hello, {{ name").
  - reflexivity.
  - vm_compute; reflexivity.
  - reflexivity.
  - reflexivity.
  - vm_compute; reflexivity.
Defined.

Lemma loader_reads_only_its_file_witness :
  files (larger_dir greeting_document) !! "prompts.yaml"
  = files (config_dir greeting_document) !! "prompts.yaml"
  /\ (prompt_template_config Reference.safe_load Reference.compile
        "prompts.yaml" "greeting" (larger_dir greeting_document)).1
     = (prompt_template_config Reference.safe_load Reference.compile
          "prompts.yaml" "greeting" (config_dir greeting_document)).1.
Proof.
  assert (files (larger_dir greeting_document) !! "prompts.yaml"
          = files (config_dir greeting_document) !! "prompts.yaml") as Hsame
    by (vm_compute; reflexivity).
  split; [exact Hsame|].
  exact (loader_reads_only_its_file Reference.safe_load Reference.compile
           (config_dir greeting_document) (larger_dir greeting_document)
           "prompts.yaml" "greeting" Hsame).
Defined.

End LoaderMore.
